(** * generate_interview_questions.py: a verified model

    The script renders, for every day of [range(6, 21)], one markdown
    document from a topic table and a company list, writes it to
    [day-{day}/practice/interview-questions.md] and prints a notice.

    Modelling choices.
    - Python [str] values are kept as their UTF-8 bytes ([string] is a list
      of bytes here); the two emoji of the script are the byte sequences of
      the literals below.
    - [int] is [Z]; [f"{day}"] is the decimal rendering [pretty].
    - The dict [topics] is a [gmap Z string]; [topics[day]] raises
      [KeyError] on a missing key.
    - The file system is a set of existing directories, a set of paths the
      process may not open, and a map from paths to file contents.
      [open(path, "w")] fails when the parent directory is missing or the
      path is denied; otherwise the [with] block replaces the file's content.
      Distinct path strings name distinct files (no links), and a write that
      fails after a successful [open] is not modelled.
    - [print] always succeeds and adds one line to the console.
    - Every completed effect is appended to a history, so that the order of
      writes and prints can be stated. *)

From stdpp Require Import gmap strings list fin_maps pretty.

Local Open Scope Z_scope.

(** ** Strings *)

Definition newline : Ascii.ascii := Ascii.ascii_of_nat 10%nat.
Definition slash : Ascii.ascii := Ascii.ascii_of_nat 47%nat.

(** [sep.join(l)] *)
Fixpoint join (sep : string) (l : list string) : string :=
  match l with
  | [] => ""
  | [s] => s
  | s :: l' => s +:+ sep +:+ join sep l'
  end.

(** The text after the first ['/'] of [s] (empty when there is none). *)
Fixpoint after_slash (s : string) : string :=
  match s with
  | EmptyString => ""
  | String c s' => if Ascii.eqb c slash then s' else after_slash s'
  end.

(** [os.path.dirname]: the text before the last ['/']. *)
Definition dirname (p : string) : string :=
  String.rev (after_slash (String.rev p)).

(** ** The static tables (lines 4-22) *)

Definition topics : gmap Z string :=
  list_to_map
    [ (6, "Forms & Controlled Components");
      (7, "Conditional Rendering Patterns");
      (8, "useEffect Hook - Part 1");
      (9, "useEffect Hook - Part 2");
      (10, "Data Fetching Patterns");
      (11, "useRef Hook");
      (12, "useCallback Hook");
      (13, "useMemo Hook");
      (14, "Context API - Part 1");
      (15, "Context API - Part 2");
      (16, "Custom Hooks - Part 1");
      (17, "Custom Hooks - Part 2");
      (18, "Component Composition");
      (19, "Compound Components Pattern");
      (20, "Render Props Pattern") ].

Definition companies : list string :=
  ["Google"; "Meta"; "Amazon"; "Microsoft"; "Apple"; "Netflix"; "Uber";
   "LinkedIn"; "Twitter"; "Airbnb"].

(** [range(lo, hi)] *)
Definition range (lo hi : Z) : list Z := seqZ lo (hi - lo).

Arguments range : simpl never.

(** ** The template (lines 26-92) *)

(** The first f-string, lines 26-71. *)
Definition content_head (cs : list string) (day : Z) (topic : string) : string :=
  "# Day " +:+ pretty day +:+ ": " +:+ topic +:+ " - 100+ Interview Questions

## Theory Questions from Top MNCs (50+)

### Q1-Q50: Core Concepts (" +:+ topic +:+ ")

Day " +:+ pretty day +:+ " covers essential React concepts related to " +:+ topic +:+ ".

**Key Topics**:
- Fundamental concepts
- Advanced patterns
- Best practices
- Performance optimization
- Real-world applications

**Companies**: " +:+ join ", " cs +:+ "

---

## Coding Challenges from Real Interviews (40+)

### Problem 1-40: Practical Coding Problems

Real coding challenges asked in interviews at top companies covering " +:+ topic +:+ ".

**Sample Problems**:
1. Basic implementation
2. Intermediate patterns
3. Advanced optimizations
4. Real-world scenarios

---

## Advanced & Edge Cases (10+)

### Q1-Q10: Edge Cases and Advanced Scenarios

Questions testing deep understanding of " +:+ topic +:+ " and edge cases.

---

## Company-Specific Questions (10+)

### Questions from specific companies:

".

(** The f-string appended for one company, lines 73-78. *)
Definition content_company (company topic : string) : string :=
  "
### " +:+ company +:+ " Questions
- Question 1 about " +:+ topic +:+ "
- Question 2 about " +:+ topic +:+ "
- Best practices for " +:+ topic +:+ "
".

(** The last f-string, lines 80-92. *)
Definition content_tail (topic : string) : string :=
  "
---

## Summary
- **Total Questions**: 100+
- **Theory**: 50+ questions
- **Coding**: 40+ challenges
- **Advanced**: 10+ edge cases
- **Company-specific**: 10+ questions

**🎯 Master " +:+ topic +:+ " with comprehensive coverage!**

".

(** The value of [content] at line 94: the head, then one [+=] per company
    in list order, then the tail. *)
Definition render (cs : list string) (day : Z) (topic : string) : string :=
  foldl (λ content company, content +:+ content_company company topic)
        (content_head cs day topic) cs
  +:+ content_tail topic.

(** The path of line 94 and the notice of line 96. *)
Definition out_path (day : Z) : string :=
  "day-" +:+ pretty day +:+ "/practice/interview-questions.md".

Definition created_notice (day : Z) : string :=
  "✅ Created day-" +:+ pretty day +:+ "/practice/interview-questions.md".

Definition final_notice : string := "✅ Generated all interview question files!".


(** ** Exceptions, file system and the world the script runs in *)

(** [KeyError] is raised by [topics[day]]; the other two are the [OSError]s
    of [open(path, "w")]. *)
Inductive exn : Type :=
  | KeyError (key : Z)
  | FileNotFoundError (path : string)
  | PermissionError (path : string).

Record filesystem : Type := Filesystem {
  dirs : gset string;          (* the directories that exist *)
  denied : gset string;        (* the paths the process may not open *)
  files : gmap string string   (* the regular files and their contents *)
}.

(** A completed effect of the script. *)
Inductive event : Type :=
  | Wrote (path content : string)
  | Printed (line : string).

Record world : Type := World {
  disk : filesystem;
  history : list event
}.

(** Statements run in a world and either finish or raise; the world reached
    is kept in both cases, since an uncaught exception undoes nothing. *)
Definition M (A : Type) : Type := world → (exn + A) * world.

#[export] Instance M_ret : MRet M := λ A x w, (inr x, w).

#[export] Instance M_bind : MBind M := λ A B k m w,
  match m w with
  | (inl e, w') => (inl e, w')
  | (inr x, w') => k x w'
  end.

Definition raise {A : Type} (e : exn) : M A := λ w, (inl e, w).

(** [tbl[key]] *)
Definition getitem (tbl : gmap Z string) (key : Z) : M string :=
  match tbl !! key with
  | Some v => mret v
  | None => raise (KeyError key)
  end.

(** [with open(path, "w") as f: f.write(content)] on the file system. *)
Definition write_text (path content : string) (fs : filesystem)
    : exn + filesystem :=
  if decide (dirname path ∈ dirs fs) then
    if decide (path ∈ denied fs) then inl (PermissionError path)
    else inr {| dirs := dirs fs; denied := denied fs;
                files := <[path := content]> (files fs) |}
  else inl (FileNotFoundError path).

Definition write_file (path content : string) : M unit := λ w,
  match write_text path content (disk w) with
  | inl e => (inl e, w)
  | inr fs' => (inr (), {| disk := fs';
                           history := history w ++ [Wrote path content] |})
  end.

(** [print(line)] *)
Definition print (line : string) : M unit := λ w,
  (inr (), {| disk := disk w; history := history w ++ [Printed line] |}).

(** [for day in days: body(day)] *)
Fixpoint for_each (days : list Z) (body : Z → M unit) : M unit :=
  match days with
  | [] => mret ()
  | day :: days' => body day;; for_each days' body
  end.

(** ** The script (lines 24-98) *)

(** One iteration of the loop, lines 25-96. *)
Definition generate_day (tbl : gmap Z string) (cs : list string) (day : Z)
    : M unit :=
  topic ← getitem tbl day;
  let content := render cs day topic in
  write_file (out_path day) content;;
  print (created_notice day).

(** The loop and the last print, for any topic table and company list. *)
Definition generate (tbl : gmap Z string) (cs : list string) : M unit :=
  for_each (range 6 21) (generate_day tbl cs);;
  print final_notice.

(** The script as shipped. *)
Definition main : M unit := generate topics companies.

(** ** Observations *)

(** The lines printed so far. *)
Definition stdout (w : world) : list string :=
  omap (λ e, match e with Printed l => Some l | Wrote _ _ => None end)
       (history w).

(** The files written so far, in order. *)
Definition writes (h : list event) : list (string * string) :=
  omap (λ e, match e with Wrote p c => Some (p, c) | Printed _ => None end) h.

(** The lines of a text, split at newlines (a final newline ends the last
    line and starts no new one). *)
Fixpoint lines (s : string) : list string :=
  match s with
  | EmptyString => []
  | String c s' =>
      if Ascii.eqb c newline then "" :: lines s'
      else match lines s' with
           | [] => [String c ""]
           | l :: ls => String c l :: ls
           end
  end.

(** A world in which every output directory exists and nothing is denied. *)
Definition ready_disk : filesystem :=
  {| dirs := list_to_set ((λ d, dirname (out_path d)) <$> range 6 21);
     denied := ∅; files := ∅ |}.

Definition ready : world := {| disk := ready_disk; history := [] |}.

(** A disk on which only the directory of day 6 exists. *)
Definition only_day_6 : world :=
  {| disk := {| dirs := {["day-6/practice"]}; denied := ∅; files := ∅ |};
     history := [] |}.

(** ** A run in closed form

    Whether an iteration succeeds depends on the topic table and on the
    directories and denied paths only, which no write changes: a run is the
    effects of the longest prefix of good days, then the exception of the
    first bad day if there is one. *)

Definition can_open (ds dn : gset string) (path : string) : bool :=
  bool_decide (dirname path ∈ ds) && negb (bool_decide (path ∈ dn)).

Definition day_ok (tbl : gmap Z string) (ds dn : gset string) (day : Z) : bool :=
  match tbl !! day with
  | Some _ => can_open ds dn (out_path day)
  | None => false
  end.

Definition day_exn (tbl : gmap Z string) (ds : gset string) (day : Z) : exn :=
  match tbl !! day with
  | None => KeyError day
  | Some _ =>
      if decide (dirname (out_path day) ∈ ds)
      then PermissionError (out_path day)
      else FileNotFoundError (out_path day)
  end.

(** The two effects of a good day. *)
Definition day_events (tbl : gmap Z string) (cs : list string) (day : Z)
    : list event :=
  match tbl !! day with
  | Some topic => [Wrote (out_path day) (render cs day topic);
                   Printed (created_notice day)]
  | None => []
  end.

Definition day_file (tbl : gmap Z string) (cs : list string) (day : Z)
    (m : gmap string string) : gmap string string :=
  match tbl !! day with
  | Some topic => <[out_path day := render cs day topic]> m
  | None => m
  end.

Fixpoint days_files (tbl : gmap Z string) (cs : list string) (days : list Z)
    (m : gmap string string) : gmap string string :=
  match days with
  | [] => m
  | day :: days' => days_files tbl cs days' (day_file tbl cs day m)
  end.

Definition after_days (tbl : gmap Z string) (cs : list string) (days : list Z)
    (w : world) : world :=
  {| disk := {| dirs := dirs (disk w); denied := denied (disk w);
                files := days_files tbl cs days (files (disk w)) |};
     history := history w ++ days ≫= day_events tbl cs |}.

Fixpoint good_prefix (ok : Z → bool) (days : list Z) : list Z :=
  match days with
  | [] => []
  | day :: days' => if ok day then day :: good_prefix ok days' else []
  end.

Fixpoint first_bad (ok : Z → bool) (days : list Z) : option Z :=
  match days with
  | [] => None
  | day :: days' => if ok day then first_bad ok days' else Some day
  end.

(** ** Reading a rendered document and a history *)

Fixpoint starts_with (p s : string) : bool :=
  match p, s with
  | EmptyString, _ => true
  | String a p', String b s' => Ascii.eqb a b && starts_with p' s'
  | String _ _, EmptyString => false
  end.

Definition ends_with (p s : string) : bool :=
  starts_with (String.rev p) (String.rev s).

(** [sub in s] *)
Fixpoint contains (sub s : string) : bool :=
  starts_with sub s ||
  match s with
  | EmptyString => false
  | String _ s' => contains sub s'
  end.

(** [s] without its first [n] bytes. *)
Fixpoint skip (n : nat) (s : string) : string :=
  match n, s with
  | S n', String _ s' => skip n' s'
  | _, _ => s
  end.

(** The lines up to the next second-level heading. *)
Fixpoint section_body (ls : list string) : list string :=
  match ls with
  | [] => []
  | l :: ls' => if starts_with "## " l then [] else l :: section_body ls'
  end.

(** The body of the section whose heading line starts with [## title]. *)
Fixpoint section (title : string) (ls : list string) : list string :=
  match ls with
  | [] => []
  | l :: ls' =>
      if starts_with ("## " +:+ title) l then section_body ls'
      else section title ls'
  end.

(** [Some company] on a line [### company Questions]. *)
Definition company_of_heading (l : string) : option string :=
  if starts_with "### " l && ends_with " Questions" l
  then Some (String.rev (skip 10%nat (String.rev (skip 4%nat l))))
  else None.

(** The bullet lines a list of lines starts with. *)
Fixpoint bullets (ls : list string) : list string :=
  match ls with
  | [] => []
  | l :: ls' => if starts_with "- " l then l :: bullets ls' else []
  end.

(** The company subsections of a document, in order: each company with the
    bullet lines under its heading. *)
Fixpoint subsections (ls : list string) : list (string * list string) :=
  match ls with
  | [] => []
  | l :: ls' =>
      match company_of_heading l with
      | Some c => (c, bullets ls') :: subsections ls'
      | None => subsections ls'
      end
  end.

(** The last line that is not empty. *)
Definition closing_line (ls : list string) : option string :=
  last (filter (λ l, l ≠ "") ls).

(** The progress notices among the effects [h]: the printed lines that name
    a created file. *)
Definition progress_notices (h : list event) : list string :=
  omap (λ e, match e with
             | Printed l => if starts_with "✅ Created " l then Some l else None
             | Wrote _ _ => None
             end) h.

(** ** The template line by line

    The lines of the three f-strings of lines 26-92, for any day, topic and
    company list; [render_unlines] below shows that the rendered text is
    these lines, each ended by a newline. *)

(** No newline in [s]. *)
Fixpoint single_line (s : string) : bool :=
  match s with
  | EmptyString => true
  | String c s' => negb (Ascii.eqb c newline) && single_line s'
  end.

(** The text made of the lines [ls], each ended by a newline. *)
Fixpoint unlines (ls : list string) : string :=
  match ls with
  | [] => ""
  | l :: ls' => l +:+ String newline (unlines ls')
  end.

Definition head_lines (cs : list string) (day : Z) (topic : string)
    : list string :=
  [ "# Day " +:+ pretty day +:+ ": " +:+ topic +:+ " - 100+ Interview Questions";
    "";
    "## Theory Questions from Top MNCs (50+)";
    "";
    "### Q1-Q50: Core Concepts (" +:+ topic +:+ ")";
    "";
    "Day " +:+ pretty day +:+ " covers essential React concepts related to "
      +:+ topic +:+ ".";
    "";
    "**Key Topics**:";
    "- Fundamental concepts";
    "- Advanced patterns";
    "- Best practices";
    "- Performance optimization";
    "- Real-world applications";
    "";
    "**Companies**: " +:+ join ", " cs;
    "";
    "---";
    "";
    "## Coding Challenges from Real Interviews (40+)";
    "";
    "### Problem 1-40: Practical Coding Problems";
    "";
    "Real coding challenges asked in interviews at top companies covering "
      +:+ topic +:+ ".";
    "";
    "**Sample Problems**:";
    "1. Basic implementation";
    "2. Intermediate patterns";
    "3. Advanced optimizations";
    "4. Real-world scenarios";
    "";
    "---";
    "";
    "## Advanced & Edge Cases (10+)";
    "";
    "### Q1-Q10: Edge Cases and Advanced Scenarios";
    "";
    "Questions testing deep understanding of " +:+ topic +:+ " and edge cases.";
    "";
    "---";
    "";
    "## Company-Specific Questions (10+)";
    "";
    "### Questions from specific companies:";
    "" ].

Definition topic_bullets (topic : string) : list string :=
  [ "- Question 1 about " +:+ topic;
    "- Question 2 about " +:+ topic;
    "- Best practices for " +:+ topic ].

Definition company_lines (topic company : string) : list string :=
  "" :: ("### " +:+ company +:+ " Questions") :: topic_bullets topic.

Definition tail_lines (topic : string) : list string :=
  [ "";
    "---";
    "";
    "## Summary";
    "- **Total Questions**: 100+";
    "- **Theory**: 50+ questions";
    "- **Coding**: 40+ challenges";
    "- **Advanced**: 10+ edge cases";
    "- **Company-specific**: 10+ questions";
    "";
    "**🎯 Master " +:+ topic +:+ " with comprehensive coverage!**";
    "" ].

Definition document_lines (cs : list string) (day : Z) (topic : string)
    : list string :=
  head_lines cs day topic ++ (cs ≫= company_lines topic) ++ tail_lines topic.

(** ** Lemmas on the model *)

Lemma write_text_eq path content fs :
  write_text path content fs =
  if can_open (dirs fs) (denied fs) path
  then inr {| dirs := dirs fs; denied := denied fs;
              files := <[path := content]> (files fs) |}
  else inl (if decide (dirname path ∈ dirs fs)
            then PermissionError path else FileNotFoundError path).
Proof.
  unfold write_text, can_open.
  destruct (decide (dirname path ∈ dirs fs)) as [Hd|Hd].
  - rewrite (bool_decide_eq_true_2 _ Hd); simpl.
    destruct (decide (path ∈ denied fs)) as [Hp|Hp].
    + by rewrite (bool_decide_eq_true_2 _ Hp).
    + by rewrite (bool_decide_eq_false_2 _ Hp).
  - by rewrite (bool_decide_eq_false_2 _ Hd).
Qed.

Lemma world_eta w : {| disk := disk w; history := history w |} = w.
Proof. by destruct w. Qed.

Lemma filesystem_eta fs :
  {| dirs := dirs fs; denied := denied fs; files := files fs |} = fs.
Proof. by destruct fs. Qed.

Lemma generate_day_eq tbl cs day w :
  generate_day tbl cs day w =
  if day_ok tbl (dirs (disk w)) (denied (disk w)) day
  then (inr (), after_days tbl cs [day] w)
  else (inl (day_exn tbl (dirs (disk w)) day), w).
Proof.
  unfold generate_day, day_ok, day_exn, after_days, getitem, mbind, M_bind.
  simpl. unfold day_file, day_events.
  destruct (tbl !! day) as [topic|] eqn:Ht; simpl; [|done].
  unfold mret, M_ret, write_file. rewrite write_text_eq.
  destruct (can_open _ _ _); simpl; [|done].
  unfold print; simpl. by rewrite <-app_assoc.
Qed.

Lemma after_days_nil tbl cs w : after_days tbl cs [] w = w.
Proof.
  unfold after_days; simpl. rewrite app_nil_r, filesystem_eta.
  apply world_eta.
Qed.

Lemma after_days_cons tbl cs day days w :
  after_days tbl cs (day :: days) w =
  after_days tbl cs days (after_days tbl cs [day] w).
Proof. unfold after_days; simpl. by rewrite app_nil_r, app_assoc. Qed.

(** The loop, for any list of days and any world. *)
Lemma for_each_eq tbl cs days w :
  let ok := day_ok tbl (dirs (disk w)) (denied (disk w)) in
  for_each days (generate_day tbl cs) w =
  (match first_bad ok days with
   | None => inr ()
   | Some day => inl (day_exn tbl (dirs (disk w)) day)
   end,
   after_days tbl cs (good_prefix ok days) w).
Proof.
  simpl. revert w. induction days as [|day days IH]; intros w.
  - simpl. by rewrite after_days_nil.
  - cbn [for_each first_bad good_prefix].
    unfold mbind, M_bind. rewrite generate_day_eq.
    destruct (day_ok tbl _ _ day) eqn:Hok.
    + rewrite IH. simpl. by rewrite <-after_days_cons.
    + by rewrite after_days_nil.
Qed.

(** The whole script, for any table and company list. *)
Lemma generate_eq tbl cs w :
  let ok := day_ok tbl (dirs (disk w)) (denied (disk w)) in
  let w' := after_days tbl cs (good_prefix ok (range 6 21)) w in
  generate tbl cs w =
  match first_bad ok (range 6 21) with
  | None => (inr (), {| disk := disk w';
                        history := history w' ++ [Printed final_notice] |})
  | Some day => (inl (day_exn tbl (dirs (disk w)) day), w')
  end.
Proof.
  intros ok w'. subst ok w'.
  unfold generate, mbind, M_bind. rewrite for_each_eq.
  by destruct (first_bad _ _).
Qed.

(** *** Ranges *)

Lemma range_nil lo hi : hi ≤ lo → range lo hi = [].
Proof. intros. unfold range. apply seqZ_nil. lia. Qed.

Lemma range_cons lo hi : lo < hi → range lo hi = lo :: range (lo + 1) hi.
Proof.
  intros. unfold range. rewrite seqZ_cons by lia.
  do 2 f_equal; lia.
Qed.

Lemma elem_of_range d lo hi : d ∈ range lo hi ↔ lo ≤ d < hi.
Proof. unfold range. rewrite elem_of_seqZ. lia. Qed.

Lemma length_range lo hi : length (range lo hi) = Z.to_nat (hi - lo).
Proof. apply length_seqZ. Qed.

Lemma NoDup_range lo hi : NoDup (range lo hi).
Proof. apply NoDup_seqZ. Qed.

(** Scanning a range for its first bad day. *)
Lemma scan_range (ok : Z → bool) (n : nat) : ∀ lo hi,
  Z.to_nat (hi - lo) = n →
  (first_bad ok (range lo hi) = None ∧
   good_prefix ok (range lo hi) = range lo hi ∧
   ∀ d, lo ≤ d < hi → ok d = true) ∨
  (∃ d0, lo ≤ d0 < hi ∧
     first_bad ok (range lo hi) = Some d0 ∧
     good_prefix ok (range lo hi) = range lo d0 ∧
     ok d0 = false ∧
     ∀ d, lo ≤ d < d0 → ok d = true).
Proof.
  induction n as [|n IH]; intros lo hi Hn.
  - left. rewrite range_nil by lia. repeat split; [done..|intros; lia].
  - rewrite (range_cons lo hi) by lia. simpl.
    destruct (ok lo) eqn:Hlo.
    + destruct (IH (lo + 1) hi ltac:(lia))
        as [(Hf & Hg & Hall)|(d0 & Hd0 & Hf & Hg & Hbad & Hall)].
      * left. rewrite Hf, Hg. repeat split; [done..|].
        intros d Hd. destruct (decide (d = lo)) as [->|]; [done|].
        apply Hall; lia.
      * right. exists d0. rewrite Hf, Hg.
        rewrite (range_cons lo d0) by lia.
        repeat split; [lia|lia|done..|].
        intros d Hd. destruct (decide (d = lo)) as [->|]; [done|].
        apply Hall; lia.
    + right. exists lo. rewrite range_nil by lia.
      repeat split; [lia|lia|done..|intros; lia].
Qed.

(** *** Paths *)

Lemma string_app_inj_r (t s1 s2 : string) : s1 +:+ t = s2 +:+ t → s1 = s2.
Proof.
  assert (Hlen : ∀ a b : string,
    String.length (a +:+ b) = (String.length a + String.length b)%nat).
  { intros a b. induction a as [|c a IH]; simpl; [done|by rewrite IH]. }
  revert s2. induction s1 as [|c s1 IH]; intros [|c' s2] Heq; simpl in *.
  - done.
  - apply (f_equal String.length) in Heq.
    rewrite ?Hlen in Heq. simpl in Heq. rewrite ?Hlen in Heq. lia.
  - apply (f_equal String.length) in Heq.
    rewrite ?Hlen in Heq. simpl in Heq. rewrite ?Hlen in Heq. lia.
  - injection Heq as -> Heq. f_equal. by apply IH.
Qed.

Lemma out_path_inj d1 d2 : out_path d1 = out_path d2 → d1 = d2.
Proof.
  unfold out_path. intros Heq.
  apply (inj (String.app "day-")) in Heq.
  apply string_app_inj_r in Heq.
  by apply (inj pretty) in Heq.
Qed.

(** *** The files of a sequence of good days *)

Lemma lookup_days_files_other tbl cs days m p :
  (∀ d, d ∈ days → out_path d ≠ p) →
  days_files tbl cs days m !! p = m !! p.
Proof.
  revert m. induction days as [|d days IH]; intros m Hne; simpl; [done|].
  rewrite IH by (intros; apply Hne; by right).
  unfold day_file. destruct (tbl !! d); [|done].
  apply lookup_insert_ne, Hne. by left.
Qed.

Lemma lookup_days_files tbl cs days m d topic :
  d ∈ days → tbl !! d = Some topic →
  days_files tbl cs days m !! out_path d = Some (render cs d topic).
Proof.
  revert m. induction days as [|d' days IH]; intros m Hin Ht.
  - by apply elem_of_nil in Hin.
  - simpl. destruct (decide (d ∈ days)) as [Hd|Hd]; [by apply IH|].
    apply elem_of_cons in Hin as [->|]; [|done].
    rewrite lookup_days_files_other.
    + unfold day_file. rewrite Ht. apply lookup_insert_eq.
    + intros d2 Hd2 Heq. apply out_path_inj in Heq. by subst.
Qed.

Lemma days_files_idem tbl cs days m :
  days_files tbl cs days (days_files tbl cs days m) =
  days_files tbl cs days m.
Proof.
  apply map_eq. intros p.
  destruct (decide (Exists (λ d, out_path d = p ∧ is_Some (tbl !! d)) days))
    as [Hex|Hex].
  - apply Exists_exists in Hex as (d & Hd & <- & [topic Ht]).
    by rewrite !(lookup_days_files _ _ _ _ _ _ Hd Ht).
  - assert (Hno : ∀ m', days_files tbl cs days m' !! p = m' !! p).
    { clear m. revert Hex. induction days as [|d days IH]; intros Hex m';
        simpl; [done|].
      rewrite IH by (intros H; apply Hex; by right).
      unfold day_file. destruct (tbl !! d) eqn:Ht; [|done].
      apply lookup_insert_ne. intros Heq. apply Hex. left. eauto. }
    by rewrite !Hno.
Qed.

(** *** The fifteen days *)

Lemma range_6_21 :
  range 6 21 = [6; 7; 8; 9; 10; 11; 12; 13; 14; 15; 16; 17; 18; 19; 20].
Proof. reflexivity. Qed.

Lemma forall_days (P : Z → Prop) :
  Forall P (range 6 21) → ∀ d, 6 ≤ d ≤ 20 → P d.
Proof.
  intros HP d Hd. rewrite Forall_forall in HP.
  apply HP, elem_of_range. lia.
Qed.

(** Proves [Forall P (range 6 21)] by running [P] on each day. *)
Ltac by_days tac :=
  apply forall_days; rewrite range_6_21; repeat (constructor; [cbv beta; tac|]);
  constructor.

(** Proves [∃ topic, topics !! d = Some topic ∧ Q topic] for a literal day
    by looking the topic up and evaluating [Q]. *)
Ltac with_topic :=
  lazymatch goal with
  | |- ∃ topic, topics !! ?d = Some topic ∧ _ =>
      exists (default "" (topics !! d)); repeat split; vm_compute; reflexivity
  end.

Lemma topics_is_Some d : 6 ≤ d ≤ 20 → is_Some (topics !! d).
Proof.
  revert d. by_days ltac:(eexists; vm_compute; reflexivity).
Qed.

Lemma topics_dom : dom topics = list_to_set (range 6 21).
Proof.
  apply set_eq. intros d. rewrite elem_of_dom, elem_of_list_to_set.
  split.
  - intros [t Ht]. unfold topics in Ht.
    apply elem_of_list_to_map_2 in Ht. rewrite range_6_21.
    repeat (apply elem_of_cons in Ht as [[= <- _]|Ht]; [set_solver|]).
    by apply elem_of_nil in Ht.
  - intros Hd. apply elem_of_range in Hd. apply topics_is_Some. lia.
Qed.

(** Decides a closed proposition by evaluation. *)
Ltac by_compute :=
  lazymatch goal with
  | |- ?P => apply (bool_decide_unpack P); vm_compute; exact I
  end.

(** ** The claims *)

(** C1: for every day d of 6..20 the table has a topic and the first line
    of the rendered document is "# " followed by the heading
    "Day d: topic - 100+ Interview Questions"; for day 6 that line is
    "# Day 6: Forms & Controlled Components - 100+ Interview Questions". *)
Theorem C1_heading_is_first_line :
  (∀ d, 6 ≤ d ≤ 20 →
     ∃ topic, topics !! d = Some topic ∧
       head (lines (render companies d topic)) =
       Some ("# " +:+ "Day " +:+ pretty d +:+ ": " +:+ topic +:+
             " - 100+ Interview Questions")) ∧
  (∃ topic, topics !! 6 = Some topic ∧
     head (lines (render companies 6 topic)) =
     Some "# Day 6: Forms & Controlled Components - 100+ Interview Questions").
Proof.
  split.
  - by_days ltac:(idtac; with_topic).
  - exists "Forms & Controlled Components". split; vm_compute; reflexivity.
Qed.

(** The heading of day 7, from C1. *)
Lemma C1_heading_day_7 :
  ∃ topic, topics !! 7 = Some topic ∧
    head (lines (render companies 7 topic)) =
    Some "# Day 7: Conditional Rendering Patterns - 100+ Interview Questions".
Proof.
  destruct (proj1 C1_heading_is_first_line 7 ltac:(lia)) as (t & Ht & Hl).
  exists t. split; [exact Ht|].
  assert (t = "Conditional Rendering Patterns") as ->.
  { vm_compute in Ht. by injection Ht. }
  exact Hl.
Defined.

(** C9: the table as shipped has exactly the keys 6..20, so [topics[day]]
    returns a topic for every day of the loop and no run of the script
    raises [KeyError]. *)
Theorem C9_topic_lookup_never_fails :
  dom topics = list_to_set (range 6 21) ∧
  (∀ d w, d ∈ range 6 21 →
     ∃ topic, topics !! d = Some topic ∧ getitem topics d w = (inr topic, w)) ∧
  (∀ w key, fst (main w) ≠ inl (KeyError key)).
Proof.
  split; [apply topics_dom|]. split.
  - intros d w Hd. apply elem_of_range in Hd.
    destruct (topics_is_Some d ltac:(lia)) as [topic Ht].
    exists topic. split; [done|]. unfold getitem. by rewrite Ht.
  - intros w key. unfold main. rewrite generate_eq.
    destruct (scan_range (day_ok topics (dirs (disk w)) (denied (disk w)))
                15 6 21 eq_refl)
      as [(Hf & _)|(d0 & Hd0 & Hf & _)]; rewrite Hf; simpl; [done|].
    unfold day_exn.
    destruct (topics_is_Some d0 ltac:(lia)) as [topic ->].
    by case_decide.
Qed.

(** The lookup of day 6, from C9. *)
Lemma C9_lookup_day_6 :
  ∃ topic, topics !! 6 = Some topic ∧
    getitem topics 6 ready = (inr topic, ready).
Proof.
  apply (proj1 (proj2 C9_topic_lookup_never_fails) 6 ready).
  apply elem_of_range. lia.
Defined.

(** C2: when a topic table has no entry for a day d of 6..20, the iteration
    for d raises [KeyError d] before anything is written or printed, and
    the run over 6..20 ends in an exception at some day d0 <= d: its effects
    are those of the days before d0 only, no file of day d0 or later is
    touched, and the exception is [KeyError d] (with d0 = d) when every
    earlier day has a topic and a file that can be opened. *)
Theorem C2_missing_topic_aborts
    (tbl : gmap Z string) (cs : list string) (w : world) (d : Z) :
  6 ≤ d ≤ 20 →
  tbl !! d = None →
  generate_day tbl cs d w = (inl (KeyError d), w) ∧
  ∃ e d0, 6 ≤ d0 ≤ d ∧
    fst (generate tbl cs w) = inl e ∧
    history (snd (generate tbl cs w)) =
      history w ++ range 6 d0 ≫= day_events tbl cs ∧
    (∀ d', d0 ≤ d' →
       files (disk (snd (generate tbl cs w))) !! out_path d' =
       files (disk w) !! out_path d') ∧
    ((∀ d', 6 ≤ d' < d →
        is_Some (tbl !! d') ∧
        dirname (out_path d') ∈ dirs (disk w) ∧
        out_path d' ∉ denied (disk w)) →
     e = KeyError d ∧ d0 = d).
Proof.
  intros Hd Hnone. split.
  { rewrite generate_day_eq. unfold day_ok, day_exn. by rewrite Hnone. }
  set (ok := day_ok tbl (dirs (disk w)) (denied (disk w))).
  assert (Hbad : ok d = false) by (unfold ok, day_ok; by rewrite Hnone).
  rewrite generate_eq. fold ok.
  destruct (scan_range ok 15 6 21 eq_refl)
    as [(_ & _ & Hall)|(d0 & Hd0 & Hf & Hg & Hbad0 & Hall)].
  { rewrite Hall in Hbad by lia. done. }
  rewrite Hf, Hg.
  assert (d0 ≤ d).
  { destruct (decide (d0 ≤ d)); [done|]. rewrite Hall in Hbad by lia. done. }
  exists (day_exn tbl (dirs (disk w)) d0), d0. simpl.
  split; [lia|]. split; [done|]. split; [done|]. split.
  - intros d' Hd'. apply lookup_days_files_other.
    intros x Hx Heq. apply elem_of_range in Hx.
    apply out_path_inj in Heq. lia.
  - intros Hprev. assert (d0 = d) as ->; [|split; [|done]].
    + destruct (decide (d0 = d)); [done|].
      destruct (Hprev d0 ltac:(lia)) as ([t Ht] & Hdir & Hden).
      unfold ok, day_ok, can_open in Hbad0. rewrite Ht in Hbad0.
      rewrite (bool_decide_eq_true_2 _ Hdir) in Hbad0.
      rewrite (bool_decide_eq_false_2 _ Hden) in Hbad0. done.
    + unfold day_exn. by rewrite Hnone.
Qed.

(** The table without day 8 on a disk where every write goes through:
    days 6 and 7 are processed, then [KeyError 8] ends the run. *)
Lemma C2_table_without_day_8 :
  let tbl := delete 8 topics in
  generate_day tbl companies 8 ready = (inl (KeyError 8), ready) ∧
  fst (generate tbl companies ready) = inl (KeyError 8) ∧
  history (snd (generate tbl companies ready)) =
    range 6 8 ≫= day_events tbl companies.
Proof.
  intros tbl.
  destruct (C2_missing_topic_aborts tbl companies ready 8)
    as (Hday & e & d0 & _ & Hfst & Hhist & _ & Hexact).
  - lia.
  - vm_compute. reflexivity.
  - destruct Hexact as [-> ->].
    + intros d' Hd'. assert (d' = 6 ∨ d' = 7) as [-> | ->] by lia.
      * split; [eexists; vm_compute; reflexivity|].
        split; [by_compute|apply not_elem_of_empty].
      * split; [eexists; vm_compute; reflexivity|].
        split; [by_compute|apply not_elem_of_empty].
    + split; [exact Hday|]. split; [exact Hfst|exact Hhist].
Defined.

(** C3: when the write of day d fails (its directory is missing or its path
    is denied; no write changes either, so the write fails in the run exactly
    when it fails on the initial disk) and the files of the days before d can
    be opened, the script ends with that error; its effects are the writes
    and notices of the days 6..d-1 and nothing else, the files of those days
    hold their documents, and the file of every day from d on is as it was
    before the run. *)
Theorem C3_write_failure_aborts
    (w : world) (d : Z) (topic : string) (e : exn) :
  6 ≤ d ≤ 20 →
  (∀ d', 6 ≤ d' < d →
     dirname (out_path d') ∈ dirs (disk w) ∧ out_path d' ∉ denied (disk w)) →
  topics !! d = Some topic →
  write_text (out_path d) (render companies d topic) (disk w) = inl e →
  fst (main w) = inl e ∧
  history (snd (main w)) =
    history w ++ range 6 d ≫= day_events topics companies ∧
  (∀ d', 6 ≤ d' < d →
     ∃ topic', topics !! d' = Some topic' ∧
       files (disk (snd (main w))) !! out_path d' =
       Some (render companies d' topic')) ∧
  (∀ d', d ≤ d' →
     files (disk (snd (main w))) !! out_path d' =
     files (disk w) !! out_path d').
Proof.
  intros Hd Hprev Ht Hfail.
  set (ok := day_ok topics (dirs (disk w)) (denied (disk w))).
  rewrite write_text_eq in Hfail.
  destruct (can_open _ _ (out_path d)) eqn:Hopen; [done|].
  injection Hfail as <-.
  assert (Hbad : ok d = false) by (unfold ok, day_ok; by rewrite Ht).
  assert (Hgood : ∀ d', 6 ≤ d' < d → ok d' = true).
  { intros d' Hd'. destruct (Hprev d' Hd') as [Hdir Hden].
    destruct (topics_is_Some d' ltac:(lia)) as [t' Ht'].
    unfold ok, day_ok, can_open. rewrite Ht'.
    rewrite (bool_decide_eq_true_2 _ Hdir).
    by rewrite (bool_decide_eq_false_2 _ Hden). }
  unfold main. rewrite generate_eq. fold ok.
  destruct (scan_range ok 15 6 21 eq_refl)
    as [(_ & _ & Hall)|(d0 & Hd0 & Hf & Hg & Hbad0 & Hall)].
  { rewrite Hall in Hbad by lia. done. }
  assert (d0 = d) as ->.
  { destruct (decide (d0 < d)); [rewrite Hgood in Hbad0 by lia; done|].
    destruct (decide (d < d0)); [rewrite Hall in Hbad by lia; done|]. lia. }
  rewrite Hf, Hg. simpl. split; [|split; [done|split]].
  - unfold day_exn. by rewrite Ht.
  - intros d' Hd'. destruct (topics_is_Some d' ltac:(lia)) as [t' Ht'].
    exists t'. split; [done|]. apply lookup_days_files; [|done].
    apply elem_of_range. lia.
  - intros d' Hd'. apply lookup_days_files_other.
    intros x Hx Heq. apply elem_of_range in Hx.
    apply out_path_inj in Heq. lia.
Qed.

(** Only the directory of day 6 exists: the file of day 6 is written and
    stays, the run ends at day 7 and the file of day 7 is not created. *)
Lemma C3_missing_directory_of_day_7 :
  fst (main only_day_6) =
    inl (FileNotFoundError "day-7/practice/interview-questions.md") ∧
  history (snd (main only_day_6)) =
    [Wrote "day-6/practice/interview-questions.md"
           (render companies 6 "Forms & Controlled Components");
     Printed "✅ Created day-6/practice/interview-questions.md"] ∧
  files (disk (snd (main only_day_6))) !! out_path 6 =
    Some (render companies 6 "Forms & Controlled Components") ∧
  files (disk (snd (main only_day_6))) !! out_path 7 = None.
Proof.
  destruct (C3_write_failure_aborts only_day_6 7
              "Conditional Rendering Patterns"
              (FileNotFoundError "day-7/practice/interview-questions.md"))
    as (Hfst & Hhist & Hbefore & Hafter).
  - lia.
  - intros d' Hd'. assert (d' = 6) as -> by lia.
    split; [by_compute|apply not_elem_of_empty].
  - vm_compute. reflexivity.
  - vm_compute. reflexivity.
  - split; [exact Hfst|]. split; [exact Hhist|]. split.
    + destruct (Hbefore 6 ltac:(lia)) as (t & Ht & Hfile).
      assert (t = "Forms & Controlled Components") as <-; [|exact Hfile].
      vm_compute in Ht. by injection Ht.
    + exact (Hafter 7 ltac:(lia)).
Defined.

(** The scenario of a missing day-6/practice/: the run ends at day 6 with
    nothing written and nothing printed. *)
Example day_6_directory_missing :
  main {| disk := {| dirs := ∅; denied := ∅; files := ∅ |}; history := [] |} =
  (inl (FileNotFoundError "day-6/practice/interview-questions.md"),
   {| disk := {| dirs := ∅; denied := ∅; files := ∅ |}; history := [] |}).
Proof. vm_compute. reflexivity. Qed.

(** *** The three components of a run *)

Lemma generate_fst tbl cs w :
  fst (generate tbl cs w) =
  match first_bad (day_ok tbl (dirs (disk w)) (denied (disk w))) (range 6 21)
  with
  | None => inr ()
  | Some day => inl (day_exn tbl (dirs (disk w)) day)
  end.
Proof. rewrite generate_eq. by destruct (first_bad _ _). Qed.

Lemma generate_disk tbl cs w :
  disk (snd (generate tbl cs w)) =
  {| dirs := dirs (disk w); denied := denied (disk w);
     files := days_files tbl cs
                (good_prefix (day_ok tbl (dirs (disk w)) (denied (disk w)))
                             (range 6 21))
                (files (disk w)) |}.
Proof. rewrite generate_eq. by destruct (first_bad _ _). Qed.

Lemma generate_history tbl cs w :
  history (snd (generate tbl cs w)) =
  history w ++
  (good_prefix (day_ok tbl (dirs (disk w)) (denied (disk w))) (range 6 21)
     ≫= day_events tbl cs) ++
  match first_bad (day_ok tbl (dirs (disk w)) (denied (disk w))) (range 6 21)
  with
  | None => [Printed final_notice]
  | Some _ => []
  end.
Proof.
  rewrite generate_eq. destruct (first_bad _ _); simpl.
  - by rewrite app_nil_r.
  - by rewrite app_assoc.
Qed.

(** A run that finishes went through all fifteen days. *)
Lemma generate_finished tbl cs w :
  fst (generate tbl cs w) = inr () →
  good_prefix (day_ok tbl (dirs (disk w)) (denied (disk w))) (range 6 21)
    = range 6 21 ∧
  first_bad (day_ok tbl (dirs (disk w)) (denied (disk w))) (range 6 21)
    = None.
Proof.
  rewrite generate_fst.
  destruct (scan_range (day_ok tbl (dirs (disk w)) (denied (disk w)))
              15 6 21 eq_refl)
    as [(Hf & Hg & _)|(d0 & _ & Hf & _)]; rewrite Hf; [done|discriminate].
Qed.

(** The effects of the fifteen days as shipped, evaluated. *)
Lemma printed_all_days :
  omap (λ e, match e with Printed l => Some l | Wrote _ _ => None end)
       ((range 6 21 ≫= day_events topics companies) ++ [Printed final_notice])
  = (created_notice <$> range 6 21) ++ [final_notice].
Proof. vm_compute. reflexivity. Qed.

Lemma written_all_days :
  writes (range 6 21 ≫= day_events topics companies) =
  omap (λ d, topic ← topics !! d; Some (out_path d, render companies d topic))
       (range 6 21).
Proof. vm_compute. reflexivity. Qed.

(** C7 (amended): on a run that finishes, the script prints exactly 16
    lines: for each day d of 6..20 in ascending order the line
    "✅ Created day-d/practice/interview-questions.md", then the line
    "✅ Generated all interview question files!". *)
Theorem C7_console_output (w : world) :
  fst (main w) = inr () →
  ∃ out, stdout (snd (main w)) = stdout w ++ out ∧
    length out = 16%nat ∧
    out = ((λ d, "✅ Created day-" +:+ pretty d +:+
                 "/practice/interview-questions.md") <$> range 6 21) ++
          ["✅ Generated all interview question files!"].
Proof.
  intros Hok. destruct (generate_finished _ _ _ Hok) as [Hg Hf].
  eexists. split; [|split; [|reflexivity]].
  - unfold stdout at 1. unfold main. rewrite generate_history, Hg, Hf.
    rewrite omap_app, printed_all_days. reflexivity.
  - reflexivity.
Qed.

(** The sixteen lines of a run on a disk where every write goes through. *)
Lemma C7_console_output_ready :
  stdout (snd (main ready)) =
  ((λ d, "✅ Created day-" +:+ pretty d +:+
         "/practice/interview-questions.md") <$> range 6 21) ++
  ["✅ Generated all interview question files!"].
Proof.
  destruct (C7_console_output ready) as (out & Hout & _ & ->).
  - vm_compute. reflexivity.
  - exact Hout.
Defined.

(** C7 as stated fails: the lines of a finished run are not
    "Created day-d/practice/interview-questions.md" and
    "Generated all interview question files!"; each starts with a check
    mark and a space. *)
Lemma C7_lines_start_with_check_mark :
  fst (main ready) = inr () ∧
  stdout (snd (main ready)) ≠
  ((λ d, "Created day-" +:+ pretty d +:+
         "/practice/interview-questions.md") <$> range 6 21) ++
  ["Generated all interview question files!"].
Proof.
  split; [vm_compute; reflexivity|]. by_compute.
Qed.

(** After a run that finishes, the file of each day holds its document. *)
Lemma finished_files w d :
  fst (main w) = inr () → 6 ≤ d ≤ 20 →
  ∃ topic, topics !! d = Some topic ∧
    files (disk (snd (main w))) !! out_path d =
    Some (render companies d topic).
Proof.
  unfold main. intros Hok Hd.
  destruct (generate_finished _ _ _ Hok) as [Hg Hf].
  rewrite generate_disk, Hg. cbn [files].
  destruct (topics_is_Some d Hd) as [topic Ht].
  exists topic. split; [done|]. apply lookup_days_files; [|done].
  apply elem_of_range. lia.
Qed.

(** C8: no run creates or removes a directory; a run that finishes performs
    exactly 15 writes, one per day d of 6..20 in ascending order, to the 15
    distinct paths day-d/practice/interview-questions.md, each with the whole
    rendered document of its day; afterwards each of these files holds that
    document, whatever it held before, and every other file is unchanged. *)
Theorem C8_files_written (w : world) :
  dirs (disk (snd (main w))) = dirs (disk w) ∧
  (fst (main w) = inr () →
   (∃ evs, history (snd (main w)) = history w ++ evs ∧
      writes evs =
        omap (λ d, topic ← topics !! d;
                   Some ("day-" +:+ pretty d +:+
                         "/practice/interview-questions.md",
                         render companies d topic))
             (range 6 21) ∧
      length (writes evs) = 15%nat ∧
      NoDup (fst <$> writes evs)) ∧
   (∀ d, 6 ≤ d ≤ 20 →
      ∃ topic, topics !! d = Some topic ∧
        files (disk (snd (main w))) !! out_path d =
        Some (render companies d topic)) ∧
   (∀ p, (∀ d, 6 ≤ d ≤ 20 → p ≠ out_path d) →
      files (disk (snd (main w))) !! p = files (disk w) !! p)).
Proof.
  unfold main. split; [by rewrite generate_disk|].
  intros Hok. destruct (generate_finished _ _ _ Hok) as [Hg Hf].
  rewrite generate_history, generate_disk, Hg, Hf. cbn [files].
  split; [|split].
  - eexists. split; [reflexivity|].
    assert (Hw : writes ((range 6 21 ≫= day_events topics companies) ++
                         [Printed final_notice]) =
                 writes (range 6 21 ≫= day_events topics companies)).
    { unfold writes. rewrite omap_app. apply app_nil_r. }
    rewrite Hw, written_all_days. split; [reflexivity|].
    split; [vm_compute; reflexivity|].
    assert (Hp : fst <$> omap (λ d, topic ← topics !! d;
                                 Some (out_path d, render companies d topic))
                              (range 6 21) = out_path <$> range 6 21)
      by (vm_compute; reflexivity).
    rewrite Hp. apply NoDup_fmap_2; [|apply NoDup_range].
    intros d1 d2. apply out_path_inj.
  - intros d Hd. destruct (topics_is_Some d Hd) as [topic Ht].
    exists topic. split; [done|]. apply lookup_days_files; [|done].
    apply elem_of_range. lia.
  - intros p Hp. apply lookup_days_files_other.
    intros d Hd Heq. apply elem_of_range in Hd.
    apply (Hp d); [lia|done].
Qed.

(** The 15 writes of a run on a disk where every write goes through. *)
Lemma C8_files_written_ready :
  dirs (disk (snd (main ready))) = dirs (disk ready) ∧
  length (writes (history (snd (main ready)))) = 15%nat ∧
  files (disk (snd (main ready))) !!
    "day-20/practice/interview-questions.md" =
  Some (render companies 20 "Render Props Pattern").
Proof.
  destruct (C8_files_written ready) as (Hdirs & Hrun).
  destruct Hrun as ((evs & Hevs & _ & Hlen & _) & Hfiles & _).
  - vm_compute. reflexivity.
  - split; [exact Hdirs|]. split.
    + rewrite Hevs. exact Hlen.
    + destruct (Hfiles 20 ltac:(lia)) as (t & Ht & Hfile).
      assert (t = "Render Props Pattern") as <-; [|exact Hfile].
      vm_compute in Ht. by injection Ht.
Defined.

(** C5: a second run of the script on the world the first run left ends
    the same way, performs the same writes and prints in the same order, and
    leaves the disk exactly as the first run left it; when the first run
    finishes, each file day-d/practice/interview-questions.md, d in 6..20,
    holds the same document after both runs. *)
Theorem C5_second_run_identical (w : world) :
  let w1 := snd (main w) in
  let w2 := snd (main w1) in
  (fst (main w1) = fst (main w) ∧
   disk w2 = disk w1 ∧
   ∃ evs, history w1 = history w ++ evs ∧ history w2 = history w1 ++ evs) ∧
  (fst (main w) = inr () →
   ∀ d, 6 ≤ d ≤ 20 →
     ∃ topic, topics !! d = Some topic ∧
       files (disk w1) !! out_path d = Some (render companies d topic) ∧
       files (disk w2) !! out_path d = Some (render companies d topic)).
Proof.
  intros w1 w2.
  assert (Hdirs : dirs (disk w1) = dirs (disk w))
    by (unfold w1, main; by rewrite generate_disk).
  assert (Hden : denied (disk w1) = denied (disk w))
    by (unfold w1, main; by rewrite generate_disk).
  assert (Hfst : fst (main w1) = fst (main w)).
  { unfold main. rewrite !generate_fst. by rewrite Hdirs, Hden. }
  assert (Hdisk : disk w2 = disk w1).
  { unfold w2, main. rewrite generate_disk, Hdirs, Hden.
    unfold w1, main. rewrite generate_disk. cbn [files dirs denied].
    by rewrite days_files_idem. }
  split; [split; [done|split; [done|]]|].
  - eexists. split.
    + unfold w1, main. rewrite generate_history. reflexivity.
    + unfold w2, main. rewrite generate_history, Hdirs, Hden. reflexivity.
  - intros Hok d Hd.
    destruct (finished_files w d Hok Hd) as (topic & Ht & Hfile).
    exists topic. split; [done|]. split; [done|].
    rewrite Hdisk. done.
Qed.

(** Two runs in a row on a disk where every write goes through. *)
Lemma C5_two_runs_ready :
  fst (main (snd (main ready))) = inr () ∧
  files (disk (snd (main ready))) !! out_path 6 =
    Some (render companies 6 "Forms & Controlled Components") ∧
  files (disk (snd (main (snd (main ready))))) !! out_path 6 =
    Some (render companies 6 "Forms & Controlled Components").
Proof.
  destruct (C5_second_run_identical ready) as ((Hfst & _) & Hdays).
  assert (Hok : fst (main ready) = inr ()) by (vm_compute; reflexivity).
  destruct (Hdays Hok 6 ltac:(lia)) as (t & Ht & H1 & H2).
  assert (t = "Forms & Controlled Components") as ->.
  { vm_compute in Ht. by injection Ht. }
  split; [|split; [exact H1|exact H2]].
  rewrite <-Hok. exact Hfst.
Defined.

(** *** The order of writes and notices *)

Lemma day_events_Some tbl cs d topic :
  tbl !! d = Some topic →
  day_events tbl cs d =
  [Wrote (out_path d) (render cs d topic); Printed (created_notice d)].
Proof. unfold day_events. by intros ->. Qed.

Lemma starts_with_created d :
  starts_with "✅ Created " (created_notice d) = true.
Proof. reflexivity. Qed.

Lemma progress_notices_wrote p c h :
  progress_notices (Wrote p c :: h) = progress_notices h.
Proof. reflexivity. Qed.

Lemma progress_notices_created d h :
  progress_notices (Printed (created_notice d) :: h) =
  created_notice d :: progress_notices h.
Proof. reflexivity. Qed.

Lemma writes_wrote p c h : writes (Wrote p c :: h) = (p, c) :: writes h.
Proof. reflexivity. Qed.

Lemma writes_printed line h : writes (Printed line :: h) = writes h.
Proof. reflexivity. Qed.

Lemma progress_notices_app h1 h2 :
  progress_notices (h1 ++ h2) = progress_notices h1 ++ progress_notices h2.
Proof. apply omap_app. Qed.

Lemma writes_app h1 h2 : writes (h1 ++ h2) = writes h1 ++ writes h2.
Proof. apply omap_app. Qed.

(** The effects of good days hold one write and one notice per day. *)
Lemma count_day_events tbl cs days :
  (∀ d, d ∈ days → is_Some (tbl !! d)) →
  length (writes (days ≫= day_events tbl cs)) = length days ∧
  length (progress_notices (days ≫= day_events tbl cs)) = length days.
Proof.
  induction days as [|d days IH]; intros Htbl; [done|].
  destruct (Htbl d) as [topic Ht]; [by left|].
  destruct IH as [IHw IHn]; [intros; apply Htbl; by right|].
  rewrite bind_cons, (day_events_Some _ _ _ _ Ht).
  cbn [app]. rewrite progress_notices_wrote, progress_notices_created.
  rewrite writes_wrote, writes_printed. cbn [length].
  by rewrite IHw, IHn.
Qed.

(** At every point of the effects of good days, possibly followed by the
    last notice, the notices are as many as the writes or one fewer. *)
Lemma prefix_day_events tbl cs days tl h :
  (∀ d, d ∈ days → is_Some (tbl !! d)) →
  tl = [] ∨ tl = [Printed final_notice] →
  h `prefix_of` (days ≫= day_events tbl cs) ++ tl →
  (length (progress_notices h) ≤ length (writes h)
   ≤ length (progress_notices h) + 1)%nat.
Proof.
  intros Htbl Htl. revert h.
  induction days as [|d days IH]; intros h Hpre.
  - simpl in Hpre. destruct Htl as [-> | ->].
    + apply prefix_nil_inv in Hpre as ->. simpl. lia.
    + destruct h as [|e h]; [simpl; lia|].
      pose proof (prefix_cons_inv_1 _ _ _ _ Hpre) as ->.
      apply prefix_cons_inv_2, prefix_nil_inv in Hpre as ->.
      vm_compute. lia.
  - destruct (Htbl d) as [topic Ht]; [by left|].
    rewrite bind_cons, (day_events_Some _ _ _ _ Ht) in Hpre.
    cbn [app] in Hpre.
    destruct h as [|e h]; [simpl; lia|].
    pose proof (prefix_cons_inv_1 _ _ _ _ Hpre) as ->.
    apply prefix_cons_inv_2 in Hpre.
    destruct h as [|e h]; [cbn; lia|].
    pose proof (prefix_cons_inv_1 _ _ _ _ Hpre) as ->.
    apply prefix_cons_inv_2 in Hpre.
    rewrite progress_notices_wrote, progress_notices_created.
    rewrite writes_wrote, writes_printed. cbn [length].
    specialize (IH ltac:(intros; apply Htbl; by right) h Hpre). lia.
Qed.

(** Where a printed line stands among the effects of good days followed by
    [tl]: directly after the write of its day, or inside [tl]. *)
Lemma printed_in_day_events tbl cs days tl h line rest :
  (∀ d, d ∈ days → is_Some (tbl !! d)) →
  (days ≫= day_events tbl cs) ++ tl = h ++ Printed line :: rest →
  (∃ d topic days1 days2,
     days = days1 ++ d :: days2 ∧ tbl !! d = Some topic ∧
     line = created_notice d ∧
     h = (days1 ≫= day_events tbl cs) ++
         [Wrote (out_path d) (render cs d topic)]) ∨
  (∃ h1, h = (days ≫= day_events tbl cs) ++ h1 ∧
     tl = h1 ++ Printed line :: rest).
Proof.
  intros Htbl. revert h.
  induction days as [|d days IH]; intros h Heq.
  - right. exists h. done.
  - destruct (Htbl d) as [topic Ht]; [by left|].
    rewrite bind_cons, (day_events_Some _ _ _ _ Ht) in *.
    cbn [app] in Heq.
    destruct h as [|e1 h]; [done|]. injection Heq as <- Heq.
    destruct h as [|e2 h].
    + injection Heq as <- _. left. by exists d, topic, [], days.
    + injection Heq as <- Heq.
      destruct (IH ltac:(intros; apply Htbl; by right) h Heq)
        as [(d' & t' & days1 & days2 & -> & Ht' & -> & ->)|(h1 & -> & ->)].
      * left. exists d', t', (d :: days1), days2.
        rewrite bind_cons, (day_events_Some _ _ _ _ Ht). done.
      * right. by exists h1.
Qed.

(** The effects of any run of the script: those of a list of days that all
    have topics, followed by the last notice exactly when the run went
    through all fifteen days. *)
Lemma main_events w :
  ∃ days tl,
    history (snd (main w)) =
      history w ++ (days ≫= day_events topics companies) ++ tl ∧
    (∀ d, d ∈ days → is_Some (topics !! d)) ∧
    ((tl = [Printed final_notice] ∧ days = range 6 21) ∨ tl = []).
Proof.
  unfold main. rewrite generate_history.
  destruct (scan_range (day_ok topics (dirs (disk w)) (denied (disk w)))
              15 6 21 eq_refl)
    as [(Hf & Hg & _)|(d0 & Hd0 & Hf & Hg & _)]; rewrite Hf, Hg.
  - exists (range 6 21), [Printed final_notice]. split; [done|].
    split; [|by left].
    intros d Hd. apply elem_of_range in Hd. apply topics_is_Some. lia.
  - exists (range 6 d0), []. split; [done|]. split; [|by right].
    intros d Hd. apply elem_of_range in Hd. apply topics_is_Some. lia.
Qed.

(** C10 (amended): in every run, finished or aborted, each progress notice
    is printed directly after the write of the file it names, at a point
    where all earlier writes have their notices; the last notice is printed
    after all 15 writes and 15 progress notices and ends the run; at every
    point of the run the progress notices are as many as the writes or one
    fewer; and at the end of the run they are as many. *)
Theorem C10_notices_follow_writes (w : world) :
  ∃ evs, history (snd (main w)) = history w ++ evs ∧
    (∀ h, h `prefix_of` evs →
       (length (progress_notices h) ≤ length (writes h)
        ≤ length (progress_notices h) + 1)%nat) ∧
    (∀ h line rest, evs = h ++ Printed line :: rest →
       (∃ d c h0, line = "✅ Created " +:+ out_path d ∧
          h = h0 ++ [Wrote (out_path d) c] ∧
          length (progress_notices h0) = length (writes h0)) ∨
       (line = final_notice ∧ rest = [] ∧
        length (writes h) = 15%nat ∧
        length (progress_notices h) = 15%nat)) ∧
    length (progress_notices evs) = length (writes evs).
Proof.
  destruct (main_events w) as (days & tl & Hhist & Htbl & Htl).
  exists ((days ≫= day_events topics companies) ++ tl).
  split; [done|]. split; [|split].
  - intros h Hpre. apply (prefix_day_events topics companies days tl h);
      [done| |done].
    destruct Htl as [[-> _]| ->]; [by right|by left].
  - intros h line rest Heq.
    destruct (printed_in_day_events _ _ _ _ _ _ _ Htbl Heq)
      as [(d & t & days1 & days2 & -> & Ht & -> & ->)|(h1 & -> & Htl')].
    + left. exists d, (render companies d t), (days1 ≫= day_events topics companies).
      split; [done|]. split; [done|].
      destruct (count_day_events topics companies days1) as [Hw Hn].
      { intros x Hx. apply Htbl, elem_of_app. by left. }
      by rewrite Hw, Hn.
    + right. destruct Htl as [[-> ->]| ->].
      * destruct h1 as [|e h1].
        -- injection Htl' as <- <-. rewrite app_nil_r.
           destruct (count_day_events topics companies (range 6 21))
             as [Hw Hn]; [done|].
           rewrite Hw, Hn, length_range.
           split; [reflexivity|]. split; [reflexivity|].
           split; reflexivity.
        -- injection Htl' as _ Htl'. destruct h1; discriminate Htl'.
      * destruct h1; discriminate Htl'.
  - rewrite progress_notices_app, writes_app, !length_app.
    destruct (count_day_events topics companies days Htbl) as [-> ->].
    destruct Htl as [[-> _]| ->]; reflexivity.
Qed.

(** Two points of a run that goes through: after its second effect and
    at its end. *)
Lemma C10_points_of_the_ready_run :
  let evs := history (snd (main ready)) in
  (length (progress_notices (take 2 evs)) ≤ length (writes (take 2 evs))
   ≤ length (progress_notices (take 2 evs)) + 1)%nat ∧
  length (progress_notices evs) = length (writes evs).
Proof.
  intros evs.
  destruct (C10_notices_follow_writes ready)
    as (evs' & Hevs & Hpoint & _ & Hend).
  change (history ready ++ evs') with evs' in Hevs.
  fold evs in Hevs. rewrite Hevs.
  split; [|exact Hend]. apply Hpoint, prefix_take.
Defined.

(** C10 as stated fails between a write and its notice: after the first
    effect of a run that goes through, one file is written and no notice is
    printed yet. *)
Lemma C10_one_write_no_notice :
  let h := take 1 (history (snd (main ready))) in
  h `prefix_of` history (snd (main ready)) ∧
  length (writes h) = 1%nat ∧
  length (progress_notices h) = 0%nat ∧
  length (progress_notices h) ≠ length (writes h).
Proof.
  intros h. split; [apply prefix_take|].
  split; [vm_compute; reflexivity|].
  split; [vm_compute; reflexivity|].
  vm_compute. discriminate.
Qed.

(** C4 (amended): for every day d of 6..20 the rendered document has
    exactly 10 company subsections, one per company of the list and in the
    order of the list; the subsection of a company is the heading
    "### company Questions" followed by three bullet lines that name the
    topic only; and the Theory Questions section has one company line,
    "**Companies**: " followed by the comma-joined list
    "Google, Meta, Amazon, Microsoft, Apple, Netflix, Uber, LinkedIn,
    Twitter, Airbnb". *)
Theorem C4_company_subsections (d : Z) :
  6 ≤ d ≤ 20 →
  ∃ topic, topics !! d = Some topic ∧
    subsections (lines (render companies d topic)) =
      (λ company, (company, ["- Question 1 about " +:+ topic;
                             "- Question 2 about " +:+ topic;
                             "- Best practices for " +:+ topic]))
        <$> companies ∧
    length (subsections (lines (render companies d topic))) = 10%nat ∧
    filter (λ l, is_Some (company_of_heading l))
           (lines (render companies d topic)) =
      (λ company, "### " +:+ company +:+ " Questions") <$> companies ∧
    filter (λ l, starts_with "**Companies**: " l = true)
           (section "Theory Questions" (lines (render companies d topic))) =
      ["**Companies**: " +:+
       "Google, Meta, Amazon, Microsoft, Apple, Netflix, Uber, LinkedIn, Twitter, Airbnb"] ∧
    join ", " companies =
      "Google, Meta, Amazon, Microsoft, Apple, Netflix, Uber, LinkedIn, Twitter, Airbnb".
Proof.
  revert d. by_days ltac:(idtac; with_topic).
Qed.

(** The ten subsections of the document of day 6. *)
Lemma C4_company_subsections_day_6 :
  subsections (lines (render companies 6 "Forms & Controlled Components")) =
  (λ company, (company,
               ["- Question 1 about Forms & Controlled Components";
                "- Question 2 about Forms & Controlled Components";
                "- Best practices for Forms & Controlled Components"]))
    <$> companies.
Proof.
  destruct (C4_company_subsections 6 ltac:(lia)) as (t & Ht & Hsub & _).
  assert (t = "Forms & Controlled Components") as ->.
  { vm_compute in Ht. by injection Ht. }
  exact Hsub.
Defined.

(** C4 as stated fails: in the document of day 6 the first company
    subsection is that of Google, and none of its three bullet lines names
    the company; and no line of the document is the bare comma-joined
    list. *)
Lemma C4_bullets_name_the_topic_only :
  let ls := lines (render companies 6 "Forms & Controlled Components") in
  head (subsections ls) =
    Some ("Google", ["- Question 1 about Forms & Controlled Components";
                     "- Question 2 about Forms & Controlled Components";
                     "- Best practices for Forms & Controlled Components"]) ∧
  Forall (λ b, contains "Google" b = false)
    ["- Question 1 about Forms & Controlled Components";
     "- Question 2 about Forms & Controlled Components";
     "- Best practices for Forms & Controlled Components"] ∧
  ("Google, Meta, Amazon, Microsoft, Apple, Netflix, Uber, LinkedIn, Twitter, Airbnb"
     ∉ ls).
Proof.
  intros ls. split; [vm_compute; reflexivity|]. split.
  - repeat (constructor; [vm_compute; reflexivity|]). constructor.
  - by_compute.
Qed.

(** C6 (amended): the document of day 20, whose topic is "Render Props
    Pattern", has a Summary section whose first line is the bullet
    "- **Total Questions**: 100+", and the last non-empty line of the
    document, which closes that section, is the bold line
    "**🎯 Master Render Props Pattern with comprehensive coverage!**". *)
Theorem C6_summary_of_day_20 :
  topics !! 20 = Some "Render Props Pattern" ∧
  section "Summary" (lines (render companies 20 "Render Props Pattern")) =
    ["- " +:+ "**Total Questions**: 100+";
     "- **Theory**: 50+ questions";
     "- **Coding**: 40+ challenges";
     "- **Advanced**: 10+ edge cases";
     "- **Company-specific**: 10+ questions";
     "";
     "**" +:+ "🎯 Master Render Props Pattern with comprehensive coverage!"
          +:+ "**";
     ""] ∧
  closing_line (lines (render companies 20 "Render Props Pattern")) =
    Some "**🎯 Master Render Props Pattern with comprehensive coverage!**".
Proof. repeat split; vm_compute; reflexivity. Qed.

(** C6 as stated fails: no line of the document of day 20 is
    "**Total Questions**: 100+" or
    "🎯 Master Render Props Pattern with comprehensive coverage!"; the
    first carries a bullet mark and the second is set in bold. *)
Lemma C6_lines_carry_markup :
  let ls := lines (render companies 20 "Render Props Pattern") in
  ("**Total Questions**: 100+" ∉ ls) ∧
  ("🎯 Master Render Props Pattern with comprehensive coverage!" ∉ ls) ∧
  closing_line ls ≠
    Some "🎯 Master Render Props Pattern with comprehensive coverage!".
Proof.
  intros ls. split; [by_compute|]. split; by_compute.
Qed.

(** ** Further properties of the script, for any table and company list *)

Lemma day_ok_true tbl ds dn d :
  day_ok tbl ds dn d = true ↔
  is_Some (tbl !! d) ∧ dirname (out_path d) ∈ ds ∧ out_path d ∉ dn.
Proof.
  unfold day_ok, can_open. destruct (tbl !! d) as [t|].
  - rewrite andb_true_iff, negb_true_iff, bool_decide_eq_true,
      bool_decide_eq_false.
    split; [intros [??]; eauto|intros (_ & ? & ?); done].
  - split; [done|]. intros ([? ?] & _). done.
Qed.


Lemma created_notice_not_final d : created_notice d ≠ final_notice.
Proof.
  intros Heq. apply (f_equal (starts_with "✅ Created ")) in Heq.
  rewrite starts_with_created in Heq. vm_compute in Heq. done.
Qed.

(** The days a run of [generate] goes through: all fifteen, or those before
    the first day that is not good. *)
Lemma generate_days (tbl : gmap Z string) (w : world) :
  let ok := day_ok tbl (dirs (disk w)) (denied (disk w)) in
  ∃ days, good_prefix ok (range 6 21) = days ∧
    (∀ d, d ∈ days → 6 ≤ d ≤ 20 ∧ ok d = true) ∧
    ((first_bad ok (range 6 21) = None ∧ days = range 6 21 ∧
      ∀ d, 6 ≤ d ≤ 20 → ok d = true) ∨
     (∃ d0, 6 ≤ d0 ≤ 20 ∧ first_bad ok (range 6 21) = Some d0 ∧
        days = range 6 d0 ∧ ok d0 = false)).
Proof.
  intros ok.
  destruct (scan_range ok 15 6 21 eq_refl)
    as [(Hf & Hg & Hall)|(d0 & Hd0 & Hf & Hg & Hbad & Hall)].
  - exists (range 6 21). split; [done|]. split.
    + intros d Hd. apply elem_of_range in Hd. split; [lia|]. apply Hall. lia.
    + left. split; [done|]. split; [done|]. intros d Hd. apply Hall. lia.
  - exists (range 6 d0). split; [done|]. split.
    + intros d Hd. apply elem_of_range in Hd. split; [lia|]. apply Hall. lia.
    + right. exists d0. split; [lia|done].
Qed.

(** X1: two days have the same output path only when they are the same
    day, for all integers; so no iteration writes the file of another. *)
Theorem X1_distinct_days_distinct_paths (d1 d2 : Z) :
  out_path d1 = out_path d2 → d1 = d2.
Proof. apply out_path_inj. Qed.

(** Days 6 and 16 have different paths, from X1. *)
Lemma X1_paths_of_6_and_16 : out_path 6 ≠ out_path 16.
Proof.
  intros Heq. apply X1_distinct_days_distinct_paths in Heq. discriminate Heq.
Defined.



(** X3: a run never reads the files on the disk: from two worlds with the
    same directories and the same denied paths, whatever their files and
    histories, it ends the same way and performs the same writes and
    prints. *)
Theorem X3_run_ignores_file_contents
    (tbl : gmap Z string) (cs : list string) (w1 w2 : world) :
  dirs (disk w1) = dirs (disk w2) →
  denied (disk w1) = denied (disk w2) →
  fst (generate tbl cs w1) = fst (generate tbl cs w2) ∧
  ∃ evs, history (snd (generate tbl cs w1)) = history w1 ++ evs ∧
         history (snd (generate tbl cs w2)) = history w2 ++ evs.
Proof.
  intros Hdirs Hden. rewrite !generate_fst, !generate_history.
  rewrite Hdirs, Hden. split; [done|]. eexists. split; reflexivity.
Qed.

(** A disk with stale files behaves like the empty one, from X3. *)
Lemma X3_stale_file_is_not_read :
  let stale :=
    {| disk := {| dirs := dirs ready_disk; denied := ∅;
                  files := {[ out_path 6 := "old" ]} |};
       history := [Printed "earlier"] |} in
  fst (generate topics companies stale) = fst (generate topics companies ready).
Proof.
  intros stale.
  apply (X3_run_ignores_file_contents topics companies stale ready);
    reflexivity.
Defined.



Lemma Printed_inj l1 l2 : Printed l1 = Printed l2 → l1 = l2.
Proof. by intros [= ->]. Qed.

(** The new effects of a run, by the days it goes through. *)
Lemma generate_new_events tbl cs w evs :
  history (snd (generate tbl cs w)) = history w ++ evs →
  let ok := day_ok tbl (dirs (disk w)) (denied (disk w)) in
  evs = (good_prefix ok (range 6 21) ≫= day_events tbl cs) ++
        match first_bad ok (range 6 21) with
        | None => [Printed final_notice]
        | Some _ => []
        end.
Proof.
  rewrite generate_history. intros Heq. by apply app_inv_head in Heq.
Qed.

Lemma elem_of_day_events tbl cs days e :
  e ∈ days ≫= day_events tbl cs →
  ∃ d topic, d ∈ days ∧ tbl !! d = Some topic ∧
    (e = Wrote (out_path d) (render cs d topic) ∨
     e = Printed (created_notice d)).
Proof.
  intros (d & He & Hd)%list_elem_of_bind. unfold day_events in He.
  destruct (tbl !! d) as [topic|] eqn:Ht; [|by apply elem_of_nil in He].
  exists d, topic. split; [done|]. split; [done|].
  apply elem_of_cons in He as [->|He]; [by left|].
  apply elem_of_cons in He as [->|He]; [by right|].
  by apply elem_of_nil in He.
Qed.



(** X6: the last notice is printed exactly when the run finishes, and then
    the file of every day of 6..20 holds the whole document of its day. *)
Theorem X6_final_notice_iff_finished
    (tbl : gmap Z string) (cs : list string) (w : world) (evs : list event) :
  history (snd (generate tbl cs w)) = history w ++ evs →
  (Printed final_notice ∈ evs ↔ fst (generate tbl cs w) = inr ()) ∧
  (Printed final_notice ∈ evs →
   ∀ d, 6 ≤ d ≤ 20 →
     ∃ topic, tbl !! d = Some topic ∧
       files (disk (snd (generate tbl cs w))) !! out_path d =
         Some (render cs d topic)).
Proof.
  intros Hevs. apply generate_new_events in Hevs. cbv zeta in Hevs.
  rewrite generate_fst, generate_disk. cbn [files].
  destruct (generate_days tbl w)
    as (days & Hdays & Hin_days & [(Hf & -> & Hall)|(d0 & Hd0 & Hf & -> & _)]);
    rewrite Hdays, Hf in Hevs |- *; subst evs.
  - split.
    + split; [done|]. intros _. apply elem_of_app. right. by left.
    + intros _ d Hd. pose proof (Hall d Hd) as Hok.
      apply day_ok_true in Hok as ([topic Ht] & _).
      exists topic. split; [done|]. apply lookup_days_files; [|done].
      apply elem_of_range. lia.
  - assert (Hno : Printed final_notice ∉
                  (range 6 d0 ≫= day_events tbl cs) ++ []).
    { rewrite app_nil_r. intros Hin.
      apply elem_of_day_events in Hin
        as (d' & topic & _ & _ & [Heq|Heq]); [discriminate Heq|].
      apply Printed_inj in Heq. symmetry in Heq.
      by apply created_notice_not_final in Heq. }
    split; [split; [done|discriminate]|done].
Qed.

(** A run on the disk with all fifteen directories prints the last notice,
    from X6, hence finishes. *)
Lemma X6_ready_run :
  fst (generate topics companies ready) = inr ().
Proof.
  destruct (X6_final_notice_iff_finished topics companies ready
              (history (snd (generate topics companies ready))))
    as [Hiff _]; [reflexivity|].
  apply Hiff. apply (list_elem_of_lookup_2 _ 30%nat). vm_compute. reflexivity.
Defined.

(** ** The rendered text, for any day, topic and company list *)

Lemma string_app_assoc (a b c : string) : (a +:+ b) +:+ c = a +:+ b +:+ c.
Proof.
  induction a as [|x a IH]; [done|].
  change (String x ((a +:+ b) +:+ c) = String x (a +:+ b +:+ c)).
  by rewrite IH.
Qed.

Lemma string_app_nil_r (a : string) : a +:+ "" = a.
Proof.
  induction a as [|x a IH]; [done|].
  change (String x (a +:+ "") = String x a). by rewrite IH.
Qed.

Lemma unlines_app ls1 ls2 : unlines (ls1 ++ ls2) = unlines ls1 +:+ unlines ls2.
Proof.
  induction ls1 as [|l ls1 IH]; [done|].
  cbn [app unlines]. rewrite IH, string_app_assoc. reflexivity.
Qed.

Lemma content_head_unlines cs day topic :
  content_head cs day topic = unlines (head_lines cs day topic).
Proof.
  unfold content_head, head_lines. cbn [unlines].
  rewrite !string_app_assoc. reflexivity.
Qed.

Lemma content_company_unlines company topic :
  content_company company topic = unlines (company_lines topic company).
Proof.
  unfold content_company, company_lines, topic_bullets. cbn [unlines].
  rewrite !string_app_assoc. reflexivity.
Qed.

Lemma content_tail_unlines topic :
  content_tail topic = unlines (tail_lines topic).
Proof.
  unfold content_tail, tail_lines. cbn [unlines].
  rewrite !string_app_assoc. reflexivity.
Qed.

(** The loop of lines 72-78 appends the sections of the companies in list
    order. *)
Lemma company_loop topic cs content :
  foldl (λ content company, content +:+ content_company company topic)
        content cs =
  content +:+ unlines (cs ≫= company_lines topic).
Proof.
  revert content. induction cs as [|c cs IH]; intros content.
  - cbn. by rewrite string_app_nil_r.
  - cbn [foldl]. rewrite IH, bind_cons, unlines_app, string_app_assoc.
    by rewrite content_company_unlines.
Qed.

Lemma render_unlines cs day topic :
  render cs day topic = unlines (document_lines cs day topic).
Proof.
  unfold render, document_lines.
  rewrite company_loop, !unlines_app, string_app_assoc.
  by rewrite content_head_unlines, content_tail_unlines.
Qed.

(** *** Splitting a text into lines *)

Lemma lines_line l rest :
  single_line l = true → lines (l +:+ String newline rest) = l :: lines rest.
Proof.
  induction l as [|c l IH]; intros Hl.
  - reflexivity.
  - cbn [single_line] in Hl. apply andb_true_iff in Hl as [Hc Hl].
    apply negb_true_iff in Hc.
    change (lines (String c (l +:+ String newline rest)) = String c l :: lines rest).
    cbn [lines]. rewrite Hc, (IH Hl). reflexivity.
Qed.

Lemma lines_unlines ls :
  Forall (λ l, single_line l = true) ls → lines (unlines ls) = ls.
Proof.
  induction 1 as [|l ls Hl _ IH]; [done|].
  cbn [unlines]. by rewrite (lines_line _ _ Hl), IH.
Qed.

Lemma single_line_app a b :
  single_line (a +:+ b) = single_line a && single_line b.
Proof.
  induction a as [|c a IH]; [done|].
  change (single_line (String c (a +:+ b)) =
          single_line (String c a) && single_line b).
  cbn [single_line]. by rewrite IH, andb_assoc.
Qed.

Lemma single_line_join cs :
  Forall (λ c, single_line c = true) cs → single_line (join ", " cs) = true.
Proof.
  induction 1 as [|c cs Hc Hcs IH]; [done|].
  destruct cs as [|c' cs]; [done|].
  change (single_line (c +:+ ", " +:+ join ", " (c' :: cs)) = true).
  by rewrite !single_line_app, Hc, IH.
Qed.

(** The decimal rendering of an integer has no newline. *)
Lemma single_line_pretty_N_go x s :
  single_line s = true → single_line (pretty_N_go x s) = true.
Proof.
  revert s. induction (N.lt_wf_0 x) as [x _ IH]; intros s Hs.
  assert (x = 0 ∨ 0 < x)%N as [->|Hx] by lia.
  - by rewrite pretty_N_go_0.
  - rewrite pretty_N_go_step by done. apply IH.
    { by apply N.div_lt. }
    cbn [single_line]. rewrite Hs.
    unfold pretty_N_char. by repeat case_match.
Qed.

Lemma single_line_pretty (d : Z) : single_line (pretty d) = true.
Proof.
  assert (Hpos : ∀ p : positive, single_line (pretty p) = true).
  { intros p. unfold pretty, pretty_positive, pretty, pretty_N.
    case_decide; [done|]. by apply single_line_pretty_N_go. }
  destruct d as [|p|p]; [done|apply Hpos|].
  change (single_line ("-" +:+ pretty p) = true).
  by rewrite single_line_app, Hpos.
Qed.

Lemma single_line_document cs day topic :
  single_line topic = true →
  Forall (λ c, single_line c = true) cs →
  Forall (λ l, single_line l = true) (document_lines cs day topic).
Proof.
  intros Ht Hcs. unfold document_lines.
  pose proof (single_line_pretty day) as Hd.
  pose proof (single_line_join cs Hcs) as Hj.
  apply Forall_app. split; [|apply Forall_app; split].
  - unfold head_lines.
    repeat (constructor;
            [rewrite ?single_line_app, ?Ht, ?Hd, ?Hj; reflexivity|]).
    constructor.
  - apply Forall_bind. eapply Forall_impl; [exact Hcs|].
    intros c Hc. unfold company_lines, topic_bullets.
    repeat (constructor;
            [rewrite ?single_line_app, ?Ht, ?Hc; reflexivity|]).
    constructor.
  - unfold tail_lines.
    repeat (constructor; [rewrite ?single_line_app, ?Ht; reflexivity|]).
    constructor.
Qed.

Lemma length_document_lines cs day topic :
  length (document_lines cs day topic) = (57 + 5 * length cs)%nat.
Proof.
  unfold document_lines. rewrite !length_app.
  assert (Hn : length (cs ≫= company_lines topic) = (5 * length cs)%nat).
  { induction cs as [|c cs IH]; [done|].
    rewrite bind_cons, length_app, IH. cbn [length company_lines topic_bullets].
    lia. }
  rewrite Hn. cbn [length head_lines tail_lines]. lia.
Qed.

(** X7: for any day, any topic without a newline and any list of companies
    without newlines, the lines of the rendered document are the 45 lines of
    the head, five lines per company in list order, and the 12 lines of the
    tail: 57 + 5 n lines for n companies. *)
Theorem X7_lines_of_the_document
    (cs : list string) (day : Z) (topic : string) :
  single_line topic = true →
  Forall (λ c, single_line c = true) cs →
  lines (render cs day topic) =
    head_lines cs day topic ++ (cs ≫= company_lines topic) ++ tail_lines topic ∧
  length (lines (render cs day topic)) = (57 + 5 * length cs)%nat.
Proof.
  intros Ht Hcs.
  assert (Hl : lines (render cs day topic) = document_lines cs day topic).
  { rewrite render_unlines. by apply lines_unlines, single_line_document. }
  split; [exact Hl|]. rewrite Hl. apply length_document_lines.
Qed.

(** A document without companies has 57 lines, from X7. *)
Lemma X7_no_companies :
  length (lines (render [] (-3) "Hooks")) = 57%nat.
Proof.
  destruct (X7_lines_of_the_document [] (-3) "Hooks") as [_ Hlen].
  - reflexivity.
  - constructor.
  - exact Hlen.
Defined.

(** X8: for any integer day, any company list and any topic without a
    newline, the first line of the rendered document is
    "# Day day: topic - 100+ Interview Questions". *)
Theorem X8_first_line_is_the_heading
    (cs : list string) (day : Z) (topic : string) :
  single_line topic = true →
  head (lines (render cs day topic)) =
  Some ("# Day " +:+ pretty day +:+ ": " +:+ topic +:+
        " - 100+ Interview Questions").
Proof.
  intros Ht. rewrite render_unlines. unfold document_lines, head_lines.
  cbn [app unlines]. rewrite lines_line; [reflexivity|].
  by rewrite !single_line_app, Ht, single_line_pretty.
Qed.

(** The heading of a day outside the table, with a company name that holds
    a newline, from X8. *)
Lemma X8_heading_of_day_100 :
  head (lines (render [String newline "Co"] 100 "Suspense")) =
  Some "# Day 100: Suspense - 100+ Interview Questions".
Proof.
  apply (X8_first_line_is_the_heading [String newline "Co"] 100 "Suspense").
  reflexivity.
Defined.

(** *** Company headings, for any company name *)

Lemma string_rev_app_acc s acc : String.rev_app s acc = String.rev s +:+ acc.
Proof.
  revert acc. induction s as [|c s IH]; intros acc; [done|].
  unfold String.rev. cbn [String.rev_app].
  rewrite (IH (String c acc)), (IH (String c "")), string_app_assoc.
  reflexivity.
Qed.

Lemma string_rev_app a b : String.rev (a +:+ b) = String.rev b +:+ String.rev a.
Proof.
  induction a as [|c a IH].
  - change (String.rev b = String.rev b +:+ ""). by rewrite string_app_nil_r.
  - change (String.rev_app (a +:+ b) (String c "") =
            String.rev b +:+ String.rev_app a (String c "")).
    rewrite !string_rev_app_acc, IH, string_app_assoc. reflexivity.
Qed.

Lemma string_rev_involutive s : String.rev (String.rev s) = s.
Proof.
  induction s as [|c s IH]; [done|].
  change (String.rev (String.rev_app s (String c "")) = String c s).
  rewrite string_rev_app_acc, string_rev_app, IH. reflexivity.
Qed.

Lemma company_of_heading_company company :
  company_of_heading ("### " +:+ company +:+ " Questions") = Some company.
Proof.
  unfold company_of_heading, ends_with.
  change (skip 4 ("### " +:+ company +:+ " Questions"))
    with (company +:+ " Questions").
  rewrite !string_rev_app, string_app_assoc.
  change (String.rev " Questions") with "snoitseuQ ".
  change (starts_with "### " ("### " +:+ company +:+ " Questions")) with true.
  change (starts_with (String.rev " Questions")
            ("snoitseuQ " +:+ String.rev company +:+ String.rev "### "))
    with true.
  change (skip 10 ("snoitseuQ " +:+ String.rev company))
    with (String.rev company).
  cbn [andb]. by rewrite string_rev_involutive.
Qed.

(** The line of the head that starts like a heading and ends with the
    topic in brackets is no company heading. *)
Lemma company_of_heading_core_concepts topic :
  company_of_heading ("### Q1-Q50: Core Concepts (" +:+ topic +:+ ")") = None.
Proof.
  unfold company_of_heading, ends_with.
  rewrite !string_rev_app, !string_app_assoc. reflexivity.
Qed.

Lemma subsections_skip pre rest :
  Forall (λ l, company_of_heading l = None) pre →
  subsections (pre ++ rest) = subsections rest.
Proof.
  induction 1 as [|l pre Hl _ IH]; [done|].
  cbn [app subsections]. by rewrite Hl.
Qed.

Lemma subsections_company topic company rest :
  subsections (company_lines topic company ++ "" :: rest) =
  (company, topic_bullets topic) :: subsections ("" :: rest).
Proof.
  unfold company_lines. cbn [app subsections].
  change (company_of_heading "") with (@None string). cbn match.
  rewrite company_of_heading_company. reflexivity.
Qed.

Lemma company_blocks_start_blank topic cs :
  ∃ rest, (cs ≫= company_lines topic) ++ tail_lines topic = "" :: rest.
Proof.
  destruct cs as [|c cs]; [by eexists|].
  rewrite bind_cons. by eexists.
Qed.

Lemma subsections_document cs day topic :
  subsections (document_lines cs day topic) =
  (λ company, (company, topic_bullets topic)) <$> cs.
Proof.
  unfold document_lines. rewrite subsections_skip.
  - induction cs as [|c cs IH].
    + apply (subsections_skip (tail_lines topic) []).
      unfold tail_lines. repeat (constructor; [reflexivity|]). constructor.
    + rewrite bind_cons, <-app_assoc.
      destruct (company_blocks_start_blank topic cs) as [rest Hrest].
      rewrite Hrest, subsections_company, <-Hrest, IH. reflexivity.
  - unfold head_lines.
    repeat (constructor;
            [first [apply company_of_heading_core_concepts|reflexivity]|]).
    constructor.
Qed.

Lemma section_skip title pre rest :
  Forall (λ l, starts_with ("## " +:+ title) l = false) pre →
  section title (pre ++ rest) = section title rest.
Proof.
  induction 1 as [|l pre Hl _ IH]; [done|].
  cbn [app section]. by rewrite Hl.
Qed.

Lemma theory_section cs day topic :
  section "Theory Questions" (document_lines cs day topic) =
  [ "";
    "### Q1-Q50: Core Concepts (" +:+ topic +:+ ")";
    "";
    "Day " +:+ pretty day +:+ " covers essential React concepts related to "
      +:+ topic +:+ ".";
    "";
    "**Key Topics**:";
    "- Fundamental concepts";
    "- Advanced patterns";
    "- Best practices";
    "- Performance optimization";
    "- Real-world applications";
    "";
    "**Companies**: " +:+ join ", " cs;
    "";
    "---";
    "" ].
Proof. reflexivity. Qed.

Lemma summary_section cs day topic :
  section "Summary" (document_lines cs day topic) =
  [ "- **Total Questions**: 100+";
    "- **Theory**: 50+ questions";
    "- **Coding**: 40+ challenges";
    "- **Advanced**: 10+ edge cases";
    "- **Company-specific**: 10+ questions";
    "";
    "**🎯 Master " +:+ topic +:+ " with comprehensive coverage!**";
    "" ].
Proof.
  unfold document_lines. rewrite section_skip.
  - rewrite section_skip; [reflexivity|].
    apply Forall_bind, Forall_forall. intros c _.
    unfold company_lines, topic_bullets.
    repeat (constructor; [reflexivity|]). constructor.
  - unfold head_lines. repeat (constructor; [reflexivity|]). constructor.
Qed.

Lemma closing_line_document cs day topic :
  closing_line (document_lines cs day topic) =
  Some ("**🎯 Master " +:+ topic +:+ " with comprehensive coverage!**").
Proof.
  unfold closing_line, document_lines. rewrite !filter_app.
  unfold tail_lines.
  change (filter (λ l, l ≠ "")
            ["";
             "---";
             "";
             "## Summary";
             "- **Total Questions**: 100+";
             "- **Theory**: 50+ questions";
             "- **Coding**: 40+ challenges";
             "- **Advanced**: 10+ edge cases";
             "- **Company-specific**: 10+ questions";
             "";
             "**🎯 Master " +:+ topic +:+ " with comprehensive coverage!**";
             ""])
    with (["---";
           "## Summary";
           "- **Total Questions**: 100+";
           "- **Theory**: 50+ questions";
           "- **Coding**: 40+ challenges";
           "- **Advanced**: 10+ edge cases";
           "- **Company-specific**: 10+ questions"] ++
          ["**🎯 Master " +:+ topic +:+ " with comprehensive coverage!**"]).
  rewrite !app_assoc. apply last_snoc.
Qed.

(** X9: for any day, any topic without a newline and any list of companies
    without newlines, the rendered document has exactly one company
    subsection per entry of the list, in list order, each with the three
    bullets of the topic (none for an empty list), and the company line of
    its Theory Questions section is "**Companies**: " followed by the names
    joined with ", ". *)
Theorem X9_one_subsection_per_company
    (cs : list string) (day : Z) (topic : string) :
  single_line topic = true →
  Forall (λ c, single_line c = true) cs →
  subsections (lines (render cs day topic)) =
    (λ company, (company, ["- Question 1 about " +:+ topic;
                           "- Question 2 about " +:+ topic;
                           "- Best practices for " +:+ topic])) <$> cs ∧
  length (subsections (lines (render cs day topic))) = length cs ∧
  filter (λ l, starts_with "**Companies**: " l = true)
         (section "Theory Questions" (lines (render cs day topic))) =
    ["**Companies**: " +:+ join ", " cs].
Proof.
  intros Ht Hcs.
  rewrite render_unlines, lines_unlines by by apply single_line_document.
  rewrite subsections_document, length_fmap, theory_section.
  split; [reflexivity|]. split; reflexivity.
Qed.

(** Two companies and a topic of one's own, from X9. *)
Lemma X9_two_companies :
  subsections (lines (render ["Acme"; "Initech"] 3 "Portals")) =
  [("Acme", ["- Question 1 about Portals"; "- Question 2 about Portals";
             "- Best practices for Portals"]);
   ("Initech", ["- Question 1 about Portals"; "- Question 2 about Portals";
                "- Best practices for Portals"])].
Proof.
  destruct (X9_one_subsection_per_company ["Acme"; "Initech"] 3 "Portals")
    as (Hsub & _).
  - reflexivity.
  - repeat constructor.
  - exact Hsub.
Defined.

(** X10: for any day, any topic without a newline and any list of companies
    without newlines, the Summary section of the rendered document is the
    five count bullets, an empty line, the bold closing line naming the topic
    and an empty line, and that closing line is the last non-empty line of
    the document. *)
Theorem X10_summary_closes_the_document
    (cs : list string) (day : Z) (topic : string) :
  single_line topic = true →
  Forall (λ c, single_line c = true) cs →
  section "Summary" (lines (render cs day topic)) =
    [ "- **Total Questions**: 100+";
      "- **Theory**: 50+ questions";
      "- **Coding**: 40+ challenges";
      "- **Advanced**: 10+ edge cases";
      "- **Company-specific**: 10+ questions";
      "";
      "**🎯 Master " +:+ topic +:+ " with comprehensive coverage!**";
      "" ] ∧
  closing_line (lines (render cs day topic)) =
    Some ("**🎯 Master " +:+ topic +:+ " with comprehensive coverage!**").
Proof.
  intros Ht Hcs.
  rewrite render_unlines, lines_unlines by by apply single_line_document.
  split; [apply summary_section|apply closing_line_document].
Qed.

(** The closing line of a document without companies, from X10. *)
Lemma X10_closing_line_without_companies :
  closing_line (lines (render [] 1 "JSX")) =
  Some "**🎯 Master JSX with comprehensive coverage!**".
Proof.
  destruct (X10_summary_closes_the_document [] 1 "JSX") as [_ Hclose].
  - reflexivity.
  - constructor.
  - exact Hclose.
Defined.
